(** * marvin: the Azure OpenAI chat-completion provider

    A shallow embedding of
    [src/marvin/core/ChatCompletion/providers/azure/openai/__init__.py]:
    the layered construction of [ChatCompletionSettings] and the
    arity-dependent accessors of [ChatResponse].

    Python dictionaries are finite maps, attribute reads that may raise
    live in a small exception monad, and the process-wide state the
    constructor reads ([marvin.settings], the [openai] module and
    [os.environ]) is an explicit argument. *)

From Stdlib Require Import ZArith Floats.PrimFloat.
From Stdlib Require Uint63.
From Stdlib Require Import Ascii.
From stdpp Require Import gmap strings list fin_maps.

Set Warnings "-register-all,-inexact-float".
Set Default Proof Using "Type".

Open Scope string_scope.

(** ** Python values *)

(** The run-time values the provider handles.  [VSecret] is pydantic's
    [SecretStr] wrapper around a string, [VStr] a plain [str]. *)
Inductive value : Type :=
| VNone
| VInt (z : Z)
| VFloat (f : float)
| VStr (s : string)
| VSecret (s : string)
| VList (l : list value)
| VDict (d : gmap string value).

(** [v is None]. *)
Definition is_None (v : value) : Prop := v = VNone.

#[global] Instance is_None_dec (v : value) : Decision (is_None v).
Proof. unfold is_None. destruct v; (by left) || (by right). Defined.

(** [len(s) != 0] for a string. *)
Definition nonempty (s : string) : bool :=
  match s with EmptyString => false | String _ _ => true end.

(** [bool(v)]: Python truthiness.  A [SecretStr] has the length of the
    string it wraps, so an empty secret is falsy. *)
Definition truthy (v : value) : bool :=
  match v with
  | VNone => false
  | VInt z => negb (z =? 0)%Z
  | VFloat f => negb (PrimFloat.eqb f 0%float)
  | VStr s => nonempty s
  | VSecret s => nonempty s
  | VList l => match l with [] => false | _ => true end
  | VDict d => negb (bool_decide (d = ∅))
  end.

(** [isinstance(v, list)]. *)
Definition isinstance_list (v : value) : bool :=
  match v with VList _ => true | _ => false end.

(** ** Exceptions *)

Inductive exn : Type :=
| AttributeError (name : string)
| StopIteration
| TypeError
| ConfigurationError (field : string).

Inductive result (A : Type) : Type :=
| Returned (a : A)
| Raised (e : exn).
Arguments Returned {A} a.
Arguments Raised {A} e.

#[global] Instance result_ret : MRet result := λ A a, Returned a.
#[global] Instance result_bind : MBind result := λ A B k r,
  match r with
  | Returned a => k a
  | Raised e => Raised e
  end.

(** [\[f(x) for x in l\]] for an [f] that may raise: the first exception
    aborts the comprehension. *)
Fixpoint comprehension {A B} (f : A → result B) (l : list A) : result (list B) :=
  match l with
  | [] => Returned []
  | x :: l' => y ← f x; ys ← comprehension f l'; mret (y :: ys)
  end.

(** [x.name]: raises [AttributeError] when the object has no such
    attribute. *)
Definition getattr (x : value) (name : string) : result value :=
  match x with
  | VDict d =>
      match d !! name with
      | Some v => Returned v
      | None => Raised (AttributeError name)
      end
  | _ => Raised (AttributeError name)
  end.

(** [getattr(x, name, dflt)]. *)
Definition getattr_default (x : value) (name : string) (dflt : value) : value :=
  match getattr x name with
  | Returned v => v
  | Raised _ => dflt
  end.

(** [secret.get_secret_value()]. *)
Definition get_secret_value (v : value) : result value :=
  match v with
  | VSecret s => Returned (VStr s)
  | _ => Raised (AttributeError "get_secret_value")
  end.

(** ** Process-wide state read by the constructor *)

(** [marvin.settings].  The provider sub-section [settings.azure_openai]
    is kept as the dictionary [model_dump] makes of it. *)
Record Settings : Type := {
  azure_openai : gmap string value;
  llm_max_tokens : value;
  llm_temperature : value;
  llm_request_timeout_seconds : value;
  (** [settings.openai.api_key] *)
  settings_openai_api_key : value
}.

Record Process : Type := {
  settings : Settings;
  (** [openai.api_key], the key held by the vendor SDK module *)
  openai_api_key : value;
  (** [os.environ] *)
  environ : gmap string string
}.

(** [os.environ.get(name, None)]. *)
Definition environ_get (env : gmap string string) (name : string) : value :=
  match env !! name with
  | Some s => VStr s
  | None => VNone
  end.

(** ** ChatCompletionSettings *)

(** The fields declared in the class body (lines 21-42). *)
Definition __fields__ : list string :=
  ["api_key"; "api_type"; "api_base"; "api_version"; "deployment_name";
   "max_tokens"; "temperature"; "request_timeout"].

(** Their declared defaults. *)
Definition field_defaults : gmap string value :=
  list_to_map
    [("api_key", VNone);
     ("api_type", VStr "azure");
     ("api_base", VNone);
     ("api_version", VStr "2023-07-01-preview");
     ("deployment_name", VNone);
     ("max_tokens", VInt 1500);
     ("temperature", VFloat 0.8);
     ("request_timeout", VFloat 600.0)].

(** *** The environment source

    [Config.env_prefix] (line 91) makes every declared field readable
    from the variable named by the prefix and the field's name; the
    variable [api_key] names for itself on line 21 is the same one.  A
    variable holds text, which is read by the type the field is
    annotated with (lines 21-42). *)

Definition env_prefix : string := "MARVIN_AZURE_OPENAI_".

Definition upper_ascii (a : Ascii.ascii) : Ascii.ascii :=
  let n := Ascii.nat_of_ascii a in
  if bool_decide (97 ≤ n ≤ 122)%nat then Ascii.ascii_of_nat (n - 32) else a.

Fixpoint upper (s : string) : string :=
  match s with
  | EmptyString => EmptyString
  | String a s' => String (upper_ascii a) (upper s')
  end.

(** The variable a field is read from. *)
Definition env_name (k : string) : string := env_prefix ++ upper k.

Inductive field_type : Type := TStr | TInt | TFloat.

Definition annotation (k : string) : field_type :=
  if decide (k = "max_tokens") then TInt
  else if decide (k = "temperature") then TFloat
  else if decide (k = "request_timeout") then TFloat
  else TStr.

Definition digit (a : Ascii.ascii) : option Z :=
  let n := Z.of_nat (Ascii.nat_of_ascii a) in
  if bool_decide (48 ≤ n ≤ 57)%Z then Some (n - 48)%Z else None.

Fixpoint digits (s : string) (acc : Z) : option Z :=
  match s with
  | EmptyString => Some acc
  | String a s' => d ← digit a; digits s' (10 * acc + d)%Z
  end.

Definition unsigned_int (s : string) : option Z :=
  match s with
  | EmptyString => None
  | _ => digits s 0
  end.

(** [int(s)] on an optional sign followed by decimal digits. *)
Definition int_of_string (s : string) : option Z :=
  match s with
  | String "-"%char s' => Z.opp <$> unsigned_int s'
  | String "+"%char s' => unsigned_int s'
  | _ => unsigned_int s
  end.

(** The text before the first point, and the text after it if there is
    a point. *)
Fixpoint split_point (s : string) : string * option string :=
  match s with
  | EmptyString => (EmptyString, None)
  | String "."%char s' => (EmptyString, Some s')
  | String a s' => let '(i, f) := split_point s' in (String a i, f)
  end.

Definition float_of_Z (z : Z) : float := PrimFloat.of_uint63 (Uint63.of_Z z).

(** A decimal numeral with at most 22 fractional digits and digits below
    2^53: both the digits and the power of ten are floats exactly, so one
    division gives the float nearest to the numeral. *)
Definition unsigned_float (s : string) : option float :=
  let '(i, f) := split_point s in
  let f := default EmptyString f in
  match i ++ f with
  | EmptyString => None
  | ds =>
      m ← digits ds 0;
      let d := Z.of_nat (String.length f) in
      if bool_decide (m < 2 ^ 53 ∧ d ≤ 22)%Z
      then Some (float_of_Z m / float_of_Z (10 ^ d))%float
      else None
  end.

(** [float(s)] on an optional sign followed by such a numeral. *)
Definition float_of_string (s : string) : option float :=
  match s with
  | String "-"%char s' => PrimFloat.opp <$> unsigned_float s'
  | String "+"%char s' => unsigned_float s'
  | _ => unsigned_float s
  end.

(** The value a field takes from the text of its variable.  A text the
    two readers above do not cover is kept as it is: rejecting it, or
    reading it by further rules, is the validation that is left out for
    keyword arguments too. *)
Definition from_env (k : string) (s : string) : value :=
  match annotation k with
  | TStr => VStr s
  | TInt => match int_of_string s with Some z => VInt z | None => VStr s end
  | TFloat => match float_of_string s with Some f => VFloat f | None => VStr s end
  end.

(** What the environment supplies: for each declared field, the value
    of its variable when the environment defines it. *)
Definition env_settings (env : gmap string string) : gmap string value :=
  map_imap (λ k _, from_env k <$> env !! env_name k) field_defaults.

(** Validation of a value into a field annotated [SecretStr]. *)
Definition SecretStr (v : value) : value :=
  match v with
  | VStr s => VSecret s
  | _ => v
  end.

(** Modelled from the spec: the field resolution of the inherited
    constructor [BaseChatCompletionSettings.__init__] of
    [marvin.core.ChatCompletion.base], a pydantic settings class that is
    not among the sources.  Following layers 1 and 4 and step (a) of the
    key chain of the spec's section 4.1: a declared field takes the
    keyword argument when one is passed, else the environment variable
    declared for it, else its hard-coded default; [api_key], annotated
    [SecretStr], ends up wrapped.  The instance is the dictionary of its
    declared fields.  Checking the other values against their annotations
    is left out: keyword arguments are taken to be of the declared
    types. *)
Definition resolved (kwargs : gmap string value) (env : gmap string string)
  : gmap string value :=
  let given := filter (λ kv, kv.1 ∈ __fields__) kwargs in
  alter SecretStr "api_key" (given ∪ env_settings env ∪ field_defaults).

(** Modelled from the spec: the inherited constructor itself, which
    returns the instance with its fields resolved as above.  The spec
    gives it no failure of its own. *)
Definition super_init (kwargs : gmap string value) (env : gmap string string)
  : result (gmap string value) :=
  Returned (resolved kwargs env).

(** Modelled from the spec: the validation the base class applies to a
    value on its way into a field, at construction and on assignment
    alike.  The secret [api_key] is wrapped; checking the other fields is
    left out. *)
Definition validate (name : string) (v : value) : value :=
  if decide (name = "api_key") then SecretStr v else v.

(** [self.name = v]: the attribute holds the validated value. *)
Definition setattr (self : gmap string value) (name : string) (v : value)
  : gmap string value :=
  <[name := validate name v]> self.

(** The dictionary comprehension of lines 47-51 and 79-83. *)
Definition provider_defaults (cfg : Settings) : gmap string value :=
  filter (λ kv, kv.1 ∈ __fields__ ∧ ¬ is_None kv.2) (azure_openai cfg).

(** The first [__init__] of the class body (lines 44-74). *)
Definition __init__1 (P : Process) (kwargs : gmap string value)
  : result (gmap string value) :=
  let defaults := provider_defaults (settings P) in
  let defaults := <["max_tokens" := llm_max_tokens (settings P)]> defaults in
  let defaults := <["temperature" := llm_temperature (settings P)]> defaults in
  let defaults :=
    <["request_timeout" := llm_request_timeout_seconds (settings P)]> defaults in
  self ← super_init (kwargs ∪ defaults) (environ P);
  if truthy (openai_api_key P)
     || truthy (getattr_default (VDict (azure_openai (settings P))) "api_key" VNone)
  then
    let key := environ_get (environ P) "MARVIN_AZURE_OPENAI_API_KEY" in
    if truthy key then mret (setattr self "api_key" key) else
    let key := environ_get (environ P) "OPENAI_API_KEY" in
    if truthy key then mret (setattr self "api_key" key) else
    if truthy (openai_api_key P)
    then mret (setattr self "api_key" (openai_api_key P)) else
    if truthy (settings_openai_api_key (settings P))
    then key ← get_secret_value (settings_openai_api_key (settings P));
         mret (setattr self "api_key" key)
    else mret self
  else mret self.

(** The second [__init__] of the class body (lines 76-88). *)
Definition __init__2 (P : Process) (kwargs : gmap string value)
  : result (gmap string value) :=
  let defaults := provider_defaults (settings P) in
  self ← super_init (kwargs ∪ defaults) (environ P);
  api_key ← getattr (VDict self) "api_key";
  if truthy (openai_api_key P) && negb (truthy api_key)
  then mret (setattr self "api_key" (openai_api_key P))
  else mret self.

(** A class body is executed top to bottom; each [def] binds its name in
    the class namespace, replacing an earlier binding of the same name. *)
Definition class_body
  : list (string * (Process → gmap string value → result (gmap string value))) :=
  [("__init__", __init__1); ("__init__", __init__2)].

Definition class_namespace
  : gmap string (Process → gmap string value → result (gmap string value)) :=
  foldl (λ ns d, <[d.1 := d.2]> ns) ∅ class_body.

(** Calling [ChatCompletionSettings] with keyword arguments runs the
    [__init__] found in the class namespace, the inherited one when the
    class binds none. *)
Definition ChatCompletionSettings (P : Process) (kwargs : gmap string value)
  : result (gmap string value) :=
  match class_namespace !! "__init__" with
  | Some init => init P kwargs
  | None => super_init kwargs (environ P)
  end.

(** ** Vocabulary of the statements *)

(** A dictionary entry that is missing or [None]. *)
Definition unset (o : option value) : Prop := o = None ∨ o = Some VNone.

(** The key the layers below the global client settle on: the keyword
    argument, else the non-null sub-section value, else the provider's
    environment variable, else [None]. *)
Definition base_key (P : Process) (kwargs : gmap string value) : value :=
  SecretStr
    match kwargs !! "api_key" with
    | Some v => v
    | None =>
        match provider_defaults (settings P) !! "api_key" with
        | Some v => v
        | None => environ_get (environ P) "MARVIN_AZURE_OPENAI_API_KEY"
        end
    end.

(** The key the constructed instance ends up with: the global client's
    key, wrapped, when the base layers gave a falsy one and the client
    has one. *)
Definition settled_key (P : Process) (kwargs : gmap string value) : value :=
  if truthy (openai_api_key P) && negb (truthy (base_key P kwargs))
  then SecretStr (openai_api_key P)
  else base_key P kwargs.

(** The layers of a field other than [api_key]: the keyword argument,
    else the non-null sub-section value, else the field's environment
    variable, else the hard-coded default. *)
Definition layered (P : Process) (kwargs : gmap string value) (k : string)
  : option value :=
  match kwargs !! k with
  | Some v => Some v
  | None =>
      match provider_defaults (settings P) !! k with
      | Some v => Some v
      | None =>
          match environ P !! env_name k with
          | Some s => Some (from_env k s)
          | None => field_defaults !! k
          end
      end
  end.

(** The string a key value stands for, wrapped or not. *)
Definition key_string (v : value) : option string :=
  match v with
  | VStr s | VSecret s => Some s
  | _ => None
  end.

(** ** ChatResponse *)

(** The vendor's response: a list of choices, each carrying a message
    object.  A message is an attribute dictionary, since the source reads
    its [function_call] attribute both with and without a default. *)
Module Vendor.
Record Choice : Type := {
  index : nat;
  message : gmap string value;
  finish_reason : string
}.

Record Response : Type := { choices : list Choice }.
End Vendor.

Record ChatResponse : Type := { raw : Vendor.Response }.

(** [next(iter(l))]. *)
Definition next_iter {A} (l : list A) : result A :=
  match l with
  | x :: _ => Returned x
  | [] => Raised StopIteration
  end.

(** [for x in v]: only a list is iterated here. *)
Definition iterate (v : value) : result (list value) :=
  match v with
  | VList l => Returned l
  | _ => Raised TypeError
  end.

(** The property [ChatResponse.message] (lines 100-109). *)
Definition message (self : ChatResponse) : result value :=
  if (length (Vendor.choices (raw self)) =? 1)%nat
  then x ← next_iter (Vendor.choices (raw self)); mret (VDict (Vendor.message x))
  else mret (VList (map (λ x, VDict (Vendor.message x)) (Vendor.choices (raw self)))).

(** The method [ChatResponse.function_call] (lines 111-119); its
    arguments are ignored. *)
Definition function_call (self : ChatResponse) : result value :=
  m ← message self;
  if isinstance_list m
  then
    m ← message self;
    xs ← iterate m;
    fcs ← comprehension (λ x, getattr x "function_call") xs;
    mret (VList fcs)
  else
    m ← message self;
    mret (getattr_default m "function_call" VNone).

(** ** Vendor responses used below *)

Definition text_message (content : string) : gmap string value :=
  {[ "role" := VStr "assistant"; "content" := VStr content ]}.

Definition call_message (name arguments : string) : gmap string value :=
  {[ "role" := VStr "assistant"; "content" := VNone;
     "function_call" :=
       VDict {[ "name" := VStr name; "arguments" := VStr arguments ]} ]}.

Definition choice (i : nat) (m : gmap string value) : Vendor.Choice :=
  {| Vendor.index := i; Vendor.message := m; Vendor.finish_reason := "stop" |}.

Definition response (cs : list Vendor.Choice) : ChatResponse :=
  {| raw := {| Vendor.choices := cs |} |}.

(** One choice. *)
Definition one_choice : ChatResponse :=
  response [choice 0 (text_message "hello")].

(** Three choices; only the second message carries a function call, the
    other two have no [function_call] attribute at all. *)
Definition three_choices : ChatResponse :=
  response [choice 0 (text_message "a");
            choice 1 (call_message "lookup" "{}");
            choice 2 (text_message "c")].

(** Three choices whose messages all have the attribute, two of them set
    to [None]. *)
Definition three_choices_explicit_none : ChatResponse :=
  response [choice 0 (<["function_call" := VNone]> (text_message "a"));
            choice 1 (call_message "lookup" "{}");
            choice 2 (<["function_call" := VNone]> (text_message "c"))].

Definition no_choices : ChatResponse := response [].

(** ** Rendering *)

(** Modelled from the spec: the string and debug rendering of an
    instance, which the class inherits from [BaseChatCompletionSettings]
    and which is not among the sources.  Sections 4.1 and 8 require that
    no rendering contains the key.  The rendering lists the fields; the
    redaction is the one of the field type [SecretStr] of line 21: a
    secret shows as a fixed mask (as nothing when it is empty), and any
    other value, a plain string included, shows as it is. *)
Definition mask : string := "**********".

Definition shown (v : value) : value :=
  match v with
  | VSecret s => VSecret (if nonempty s then mask else "")
  | _ => v
  end.

Definition render (self : gmap string value) : gmap string value :=
  shown <$> self.

(** A key is text: [None], a string or a secret. *)
Definition textual (v : value) : Prop :=
  match v with
  | VNone | VStr _ | VSecret _ => True
  | _ => False
  end.

(** Every source the constructor takes a key from holds text; the two
    environment variables always do. *)
Definition textual_key_sources (P : Process) (kwargs : gmap string value) : Prop :=
  (∀ v, kwargs !! "api_key" = Some v → textual v)
  ∧ (∀ v, azure_openai (settings P) !! "api_key" = Some v → textual v)
  ∧ textual (openai_api_key P).

(** ** Statements about the key *)

(** Construction returns an instance whose [api_key] stands for [key]. *)
Definition resolves_api_key_to (P : Process) (kwargs : gmap string value)
    (key : string) : Prop :=
  ∃ self, ChatCompletionSettings P kwargs = Returned self
          ∧ self !! "api_key" ≫= key_string = Some key.

(** No source holds a key: no keyword argument, no sub-section value, no
    environment variable, nothing on the global client, nothing in the
    generic settings section. *)
Definition no_api_key_anywhere (P : Process) (kwargs : gmap string value) : Prop :=
  unset (kwargs !! "api_key")
  ∧ unset (azure_openai (settings P) !! "api_key")
  ∧ environ P !! "MARVIN_AZURE_OPENAI_API_KEY" = None
  ∧ environ P !! "OPENAI_API_KEY" = None
  ∧ openai_api_key P = VNone
  ∧ settings_openai_api_key (settings P) = VNone.

(** ** Process states and keyword arguments used below *)

(** Nothing configured; the global tuning values are marvin's own
    defaults. *)
Definition bare_settings : Settings :=
  {| azure_openai := ∅;
     llm_max_tokens := VInt 1500;
     llm_temperature := VFloat 0.8;
     llm_request_timeout_seconds := VFloat 600.0;
     settings_openai_api_key := VNone |}.

Definition bare : Process :=
  {| settings := bare_settings; openai_api_key := VNone; environ := ∅ |}.

(** The global tuning values changed, nothing else. *)
Definition tuned : Process :=
  {| settings :=
       {| azure_openai := ∅;
          llm_max_tokens := VInt 2000;
          llm_temperature := VFloat 0.2;
          llm_request_timeout_seconds := VFloat 30.0;
          settings_openai_api_key := VNone |};
     openai_api_key := VNone;
     environ := ∅ |}.

(** Both variables exported, nothing else. *)
Definition both_variables : Process :=
  {| settings := bare_settings;
     openai_api_key := VNone;
     environ := {[ "MARVIN_AZURE_OPENAI_API_KEY" := "X"; "OPENAI_API_KEY" := "Y" ]} |}.

(** Both variables exported and a key in the provider sub-section. *)
Definition both_variables_and_subsection : Process :=
  {| settings :=
       {| azure_openai := {[ "api_key" := VSecret "Z" ]};
          llm_max_tokens := VInt 1500;
          llm_temperature := VFloat 0.8;
          llm_request_timeout_seconds := VFloat 600.0;
          settings_openai_api_key := VNone |};
     openai_api_key := VNone;
     environ := {[ "MARVIN_AZURE_OPENAI_API_KEY" := "X"; "OPENAI_API_KEY" := "Y" ]} |}.

(** Only the generic variable exported; the global client holds no key. *)
Definition only_generic_variable : Process :=
  {| settings := bare_settings;
     openai_api_key := VNone;
     environ := {[ "OPENAI_API_KEY" := "Y" ]} |}.

(** The generic variable exported and picked up by the global client. *)
Definition generic_variable_on_client : Process :=
  {| settings := bare_settings;
     openai_api_key := VStr "Y";
     environ := {[ "OPENAI_API_KEY" := "Y" ]} |}.


(** Only the global client holds a key. *)
Definition client_key : Process :=
  {| settings := bare_settings; openai_api_key := VStr "W"; environ := ∅ |}.

Definition explicit_base_and_key : gmap string value :=
  {[ "api_base" := VStr "https://x"; "api_key" := VStr "k" ]}.

Definition explicit_base_and_empty_key : gmap string value :=
  {[ "api_base" := VStr "https://x"; "api_key" := VStr "" ]}.

(** ** Changing one part of the process state *)

Definition with_azure_openai (d : gmap string value) (P : Process) : Process :=
  {| settings :=
       {| azure_openai := d;
          llm_max_tokens := llm_max_tokens (settings P);
          llm_temperature := llm_temperature (settings P);
          llm_request_timeout_seconds := llm_request_timeout_seconds (settings P);
          settings_openai_api_key := settings_openai_api_key (settings P) |};
     openai_api_key := openai_api_key P;
     environ := environ P |}.

Definition with_openai_api_key (v : value) (P : Process) : Process :=
  {| settings := settings P; openai_api_key := v; environ := environ P |}.

(** ** Vocabulary for the first constructor definition *)

(** The test of line 59. *)
Definition first_guard (P : Process) : bool :=
  truthy (openai_api_key P)
  || truthy (getattr_default (VDict (azure_openai (settings P))) "api_key" VNone).

(** A name the environment does not define, or defines as the empty
    string: the case in which [if key := os.environ.get(name, None)]
    falls through. *)
Definition env_falsy (P : Process) (name : string) : Prop :=
  truthy (environ_get (environ P) name) = false.

(** The dictionary [defaults] of the first definition once lines 53-55
    have run. *)
Definition tuning_defaults (cfg : Settings) : gmap string value :=
  <["request_timeout" := llm_request_timeout_seconds cfg]>
    (<["temperature" := llm_temperature cfg]>
       (<["max_tokens" := llm_max_tokens cfg]> (provider_defaults cfg))).

(** ** The cookbook flow: [include_topic_filter] *)

(** [cookbook/flows/refresh_vectorstore.py], lines 18-32.  A topic is the
    dictionary decoded from the forum's JSON. *)
Module refresh_vectorstore.

Definition SHOW_AND_TELL_CATEGORY_ID : Z := 26.
Definition HELP_CATEGORY_ID : Z := 27.

Definition PREFECT_COMMUNITY_CATEGORIES : gset Z :=
  {[ SHOW_AND_TELL_CATEGORY_ID; HELP_CATEGORY_ID ]}.

Inductive error : Type :=
| KeyError (key : string)
| TypeError.

(** [d\[key\]]. *)
Definition getitem (d : gmap string value) (key : string) : error + value :=
  match d !! key with
  | Some v => inr v
  | None => inl (KeyError key)
  end.

(** [s in container] for a string [s]: an element equal to [s] in a
    list, a substring of a string, a key of a dictionary; the other
    values are no containers. *)
Definition str_in (s : string) (container : value) : error + bool :=
  match container with
  | VList l =>
      inr (existsb (λ v, match v with
                         | VStr t => bool_decide (s = t)
                         | _ => false
                         end) l)
  | VStr t => inr (bool_decide (is_Some (String.index 0 s t)))
  | VDict d => inr (bool_decide (is_Some (d !! s)))
  | VNone | VInt _ | VFloat _ | VSecret _ => inl TypeError
  end.

(** [v in PREFECT_COMMUNITY_CATEGORIES]: set membership hashes [v], which
    a list or a dictionary does not allow; a number is found by its
    value, a string or [None] is not found. *)
Definition in_categories (v : value) : error + bool :=
  match v with
  | VInt z => inr (bool_decide (z ∈ PREFECT_COMMUNITY_CATEGORIES))
  | VFloat f =>
      inr (PrimFloat.eqb f 26 || PrimFloat.eqb f 27)
  | VNone | VStr _ => inr false
  | VList _ | VDict _ | VSecret _ => inl TypeError
  end.

(** [include_topic_filter] (lines 28-32); [and] evaluates its right
    operand only when the left one is true. *)
Definition include_topic_filter (topic : gmap string value) : error + bool :=
  match getitem topic "tags" with
  | inl e => inl e
  | inr tags =>
      match str_in "marvin" tags with
      | inl e => inl e
      | inr false => inr false
      | inr true =>
          match getitem topic "category_id" with
          | inl e => inl e
          | inr category_id => in_categories category_id
          end
      end
  end.

(** Topics used below. *)
Definition marvin_help_topic : gmap string value :=
  {[ "tags" := VList [VStr "cloud"; VStr "marvin"]; "category_id" := VInt 27 ]}.

Definition untagged_topic : gmap string value :=
  {[ "tags" := VList [VStr "cloud"] ]}.

End refresh_vectorstore.

(** Membership of a literal name in [__fields__]. *)
Ltac declared_field := apply (bool_decide_unpack _); vm_compute; exact I.

(** * Response normalization *)

Section response_normalization.
Implicit Types (self : ChatResponse) (c : Vendor.Choice).

Lemma message_singular self c :
  Vendor.choices (raw self) = [c] →
  message self = Returned (VDict (Vendor.message c)).
Proof. unfold message. by intros ->. Qed.

Lemma message_plural self :
  length (Vendor.choices (raw self)) ≠ 1%nat →
  message self =
    Returned (VList (map (λ x, VDict (Vendor.message x)) (Vendor.choices (raw self)))).
Proof.
  intros Hlen. unfold message.
  by destruct (Nat.eqb_spec (length (Vendor.choices (raw self))) 1).
Qed.

(** A comprehension that does not raise keeps length and positions. *)
Lemma comprehension_Returned {A B} (f : A → result B) (l : list A) (g : A → B) :
  (∀ x, x ∈ l → f x = Returned (g x)) →
  comprehension f l = Returned (map g l).
Proof.
  induction l as [|x l IH]; intros Hf; [done|].
  simpl. rewrite (Hf x) by left. simpl.
  rewrite IH; [done|]. intros y Hy. apply Hf. by right.
Qed.

(** The first element on which [f] raises aborts the comprehension. *)
Lemma comprehension_Raised {A B} (f : A → result B) (l1 l2 : list A) x e (g : A → B) :
  (∀ y, y ∈ l1 → f y = Returned (g y)) →
  f x = Raised e →
  comprehension f (l1 ++ x :: l2)%list = Raised e.
Proof.
  induction l1 as [|y l1 IH]; intros Hf Hx; simpl.
  - by rewrite Hx.
  - rewrite (Hf y) by left. simpl.
    rewrite IH; [done| |done]. intros z Hz. apply Hf. by right.
Qed.

(** In the plural branch [function_call] reads the attribute of every
    message without a default. *)
Lemma function_call_plural self :
  length (Vendor.choices (raw self)) ≠ 1%nat →
  function_call self =
    fcs ← comprehension (λ x, getattr x "function_call")
          (map (λ x, VDict (Vendor.message x)) (Vendor.choices (raw self)));
    mret (VList fcs).
Proof. intros Hlen. unfold function_call. by rewrite message_plural. Qed.

(** When every message has the attribute, set or [None], the plural
    branch returns the attribute values in order. *)
Lemma function_call_plural_present self (fc : Vendor.Choice → value) :
  length (Vendor.choices (raw self)) ≠ 1%nat →
  (∀ c, c ∈ Vendor.choices (raw self) →
        Vendor.message c !! "function_call" = Some (fc c)) →
  function_call self = Returned (VList (map fc (Vendor.choices (raw self)))).
Proof.
  intros Hlen Hfc. rewrite function_call_plural by done.
  rewrite (comprehension_Returned _ _
             (λ x, getattr_default x "function_call" VNone)).
  - simpl. f_equal. f_equal. rewrite map_map. apply map_ext_in.
    intros c Hc%list_elem_of_In. unfold getattr_default. simpl.
    by rewrite (Hfc c Hc).
  - intros x (c & -> & Hc)%list_elem_of_fmap.
    unfold getattr_default. simpl. by rewrite (Hfc c Hc).
Qed.

(** A message without the attribute makes the plural branch raise. *)
Lemma function_call_plural_missing self (cs1 cs2 : list Vendor.Choice) c :
  Vendor.choices (raw self) = (cs1 ++ c :: cs2)%list →
  length (cs1 ++ c :: cs2)%list ≠ 1%nat →
  (∀ c', c' ∈ cs1 → is_Some (Vendor.message c' !! "function_call")) →
  Vendor.message c !! "function_call" = None →
  function_call self = Raised (AttributeError "function_call").
Proof.
  intros Hcs Hlen Hpresent Hmissing.
  rewrite function_call_plural by (by rewrite Hcs).
  rewrite Hcs, map_app. simpl.
  rewrite (comprehension_Raised _ _ _ _ (AttributeError "function_call")
             (λ x, getattr_default x "function_call" VNone)); [done| |].
  - intros y (c' & -> & Hc')%list_elem_of_fmap.
    destruct (Hpresent c' Hc') as [v Hv].
    unfold getattr_default. simpl. by rewrite Hv.
  - simpl. by rewrite Hmissing.
Qed.

(** C6: with exactly one choice, [message] is that choice's message
    object itself; with two or more, it is the list of the choices'
    messages, one per choice and in the order of the choices. *)
Theorem message_one_or_many self :
  (∀ c, Vendor.choices (raw self) = [c] →
        message self = Returned (VDict (Vendor.message c)))
  ∧ ((2 ≤ length (Vendor.choices (raw self)))%nat →
     ∃ ms, message self = Returned (VList ms)
           ∧ length ms = length (Vendor.choices (raw self))
           ∧ ∀ i c, Vendor.choices (raw self) !! i = Some c →
                    ms !! i = Some (VDict (Vendor.message c))).
Proof.
  split; [apply message_singular|].
  intros Hlen. eexists. split; [apply message_plural; lia|].
  split; [by rewrite length_map|].
  intros i c Hi. by rewrite list_lookup_fmap, Hi.
Qed.

(** C10: with no choice at all both accessors return the empty list. *)
Theorem empty_choices self :
  Vendor.choices (raw self) = [] →
  message self = Returned (VList []) ∧ function_call self = Returned (VList []).
Proof.
  intros Hnil. split.
  - rewrite message_plural; rewrite Hnil; [done|simpl; lia].
  - rewrite function_call_plural; rewrite Hnil; [done|simpl; lia].
Qed.
End response_normalization.

Lemma message_one_or_many_witness :
  message one_choice = Returned (VDict (text_message "hello"))
  ∧ ∃ ms, message three_choices = Returned (VList ms) ∧ length ms = 3%nat.
Proof.
  split.
  - apply (proj1 (message_one_or_many one_choice) (choice 0 (text_message "hello"))).
    reflexivity.
  - destruct (proj2 (message_one_or_many three_choices)) as (ms & Hms & Hlen & _).
    + simpl. lia.
    + exists ms. split; [exact Hms | exact Hlen].
Defined.

Lemma empty_choices_witness :
  message no_choices = Returned (VList [])
  ∧ function_call no_choices = Returned (VList []).
Proof. apply (empty_choices no_choices). reflexivity. Defined.

(** C7: on three choices [message] is a list of three messages, but
    [function_call] raises [AttributeError] as soon as one of them has no
    [function_call] attribute, instead of returning [None] in its place. *)
Theorem function_call_three_choices_raises :
  (∃ ms, message three_choices = Returned (VList ms) ∧ length ms = 3%nat)
  ∧ function_call three_choices = Raised (AttributeError "function_call").
Proof. split; [eexists; split; reflexivity | reflexivity]. Qed.

(** With the attribute present on every message the three entries come
    back in order, [None] included. *)
Lemma function_call_three_choices_explicit_none :
  function_call three_choices_explicit_none =
    Returned (VList [VNone;
                     VDict {[ "name" := VStr "lookup"; "arguments" := VStr "{}" ]};
                     VNone]).
Proof. reflexivity. Qed.

(** The singular branch does supply the default. *)
Lemma function_call_one_choice_absent :
  function_call one_choice = Returned VNone.
Proof. reflexivity. Qed.

(** * Configuration resolution *)

Section configuration_resolution.
Implicit Types (P : Process) (kwargs : gmap string value) (k : string).

Lemma lookup_union_first {A} (m1 m2 : gmap string A) k :
  (m1 ∪ m2) !! k = match m1 !! k with Some v => Some v | None => m2 !! k end.
Proof. rewrite lookup_union. by destruct (m1 !! k), (m2 !! k). Qed.

Lemma provider_defaults_lookup cfg k :
  provider_defaults cfg !! k =
    match azure_openai cfg !! k with
    | Some v => if decide (k ∈ __fields__ ∧ ¬ is_None v) then Some v else None
    | None => None
    end.
Proof.
  unfold provider_defaults. rewrite map_lookup_filter.
  destruct (azure_openai cfg !! k) as [v|]; [simpl|done].
  apply option_guard_decide.
Qed.

Lemma provider_defaults_unset cfg k :
  unset (azure_openai cfg !! k) → provider_defaults cfg !! k = None.
Proof.
  rewrite provider_defaults_lookup. intros [->| ->]; [done|].
  case_decide as H; [|done]. by destruct H as [_ []].
Qed.

Lemma field_defaults_declared k :
  k ∈ __fields__ ↔ is_Some (field_defaults !! k).
Proof.
  split.
  - unfold __fields__. rewrite !elem_of_cons, elem_of_nil.
    intros H. repeat (destruct H as [->|H]; [by eexists|]). done.
  - intros [v Hv]. unfold field_defaults in Hv.
    apply elem_of_list_to_map_2 in Hv.
    rewrite !elem_of_cons, elem_of_nil in Hv.
    repeat (destruct Hv as [[= -> ->] | Hv]; [declared_field|]). done.
Qed.

Lemma env_settings_lookup env k :
  env_settings env !! k =
    if decide (k ∈ __fields__) then from_env k <$> env !! env_name k else None.
Proof.
  unfold env_settings. rewrite map_lookup_imap.
  case_decide as Hk.
  - by apply field_defaults_declared in Hk as [d ->].
  - destruct (field_defaults !! k) eqn:Hd; [|done].
    exfalso. apply Hk, field_defaults_declared. by eexists.
Qed.

Lemma env_settings_api_key env :
  env_settings env !! "api_key" = VStr <$> env !! "MARVIN_AZURE_OPENAI_API_KEY".
Proof. by rewrite env_settings_lookup, decide_True by declared_field. Qed.

(** What the inherited constructor stores in a declared field. *)
Lemma resolved_lookup kwargs env k :
  k ∈ __fields__ →
  resolved kwargs env !! k =
    (if decide (k = "api_key") then fmap SecretStr else id)
      (match kwargs !! k with
       | Some v => Some v
       | None =>
           match env_settings env !! k with
           | Some v => Some v
           | None => field_defaults !! k
           end
       end).
Proof.
  intros Hk. unfold resolved.
  assert (filter (λ kv, kv.1 ∈ __fields__) kwargs !! k = kwargs !! k) as Hflt.
  { rewrite map_lookup_filter. destruct (kwargs !! k); [simpl|done].
    by case_guard. }
  destruct (decide (k = "api_key")) as [->|Hne].
  - rewrite lookup_alter_eq, !lookup_union_first, Hflt.
    by destruct (kwargs !! "api_key").
  - rewrite lookup_alter_ne, !lookup_union_first, Hflt by done.
    by destruct (kwargs !! k).
Qed.

Lemma resolved_api_key kwargs env :
  resolved kwargs env !! "api_key" =
    Some (SecretStr (match kwargs !! "api_key" with
                     | Some v => v
                     | None => environ_get env "MARVIN_AZURE_OPENAI_API_KEY"
                     end)).
Proof.
  rewrite resolved_lookup by declared_field.
  rewrite decide_True by done. rewrite env_settings_api_key.
  unfold environ_get.
  by destruct (kwargs !! "api_key"), (env !! "MARVIN_AZURE_OPENAI_API_KEY").
Qed.

(** What it stores in a declared field other than [api_key]. *)
Lemma resolved_field kwargs env k :
  k ∈ __fields__ → k ≠ "api_key" →
  resolved kwargs env !! k =
    match kwargs !! k with
    | Some v => Some v
    | None =>
        match env !! env_name k with
        | Some s => Some (from_env k s)
        | None => field_defaults !! k
        end
    end.
Proof.
  intros Hk Hne. rewrite resolved_lookup, decide_False by done.
  rewrite env_settings_lookup, decide_True by done. simpl.
  by destruct (kwargs !! k), (env !! env_name k).
Qed.

Lemma base_key_spec P kwargs :
  resolved (kwargs ∪ provider_defaults (settings P)) (environ P) !! "api_key"
  = Some (base_key P kwargs).
Proof.
  rewrite resolved_api_key, lookup_union_first. unfold base_key.
  by destruct (kwargs !! "api_key"),
              (provider_defaults (settings P) !! "api_key").
Qed.

(** The second definition, in closed form. *)
Lemma init2_closed_form P kwargs :
  __init__2 P kwargs =
    Returned
      (let self := resolved (kwargs ∪ provider_defaults (settings P)) (environ P) in
       if truthy (openai_api_key P) && negb (truthy (base_key P kwargs))
       then setattr self "api_key" (openai_api_key P)
       else self).
Proof.
  unfold __init__2, super_init. simpl. rewrite base_key_spec. simpl.
  by destruct (truthy (openai_api_key P) && negb (truthy (base_key P kwargs))).
Qed.

(** The class namespace ends up holding the second definition. *)
Lemma ChatCompletionSettings_is_init2 P kwargs :
  ChatCompletionSettings P kwargs = __init__2 P kwargs.
Proof. reflexivity. Qed.

(** Construction always returns.  [api_key] is the key of the base layers
    unless that one is falsy and the global client has one; every other
    declared field is the keyword argument, else the non-null sub-section
    value, else the field's environment variable, else the hard-coded
    default. *)
Lemma init2_returns P kwargs :
  ∃ self, __init__2 P kwargs = Returned self
    ∧ self !! "api_key" = Some (settled_key P kwargs)
    ∧ ∀ k, k ∈ __fields__ → k ≠ "api_key" → self !! k = layered P kwargs k.
Proof.
  rewrite init2_closed_form. eexists. split; [done|]. simpl.
  unfold settled_key, layered.
  destruct (truthy (openai_api_key P) && negb (truthy (base_key P kwargs))).
  - split; [apply lookup_insert_eq|]. intros k Hk Hne.
    unfold setattr. rewrite lookup_insert_ne by done.
    rewrite resolved_field, lookup_union_first by done.
    by destruct (kwargs !! k), (provider_defaults (settings P) !! k).
  - split; [apply base_key_spec|]. intros k Hk Hne.
    rewrite resolved_field, lookup_union_first by done.
    by destruct (kwargs !! k), (provider_defaults (settings P) !! k).
Qed.

Lemma construction P kwargs :
  ∃ self, ChatCompletionSettings P kwargs = Returned self
    ∧ self !! "api_key" = Some (settled_key P kwargs)
    ∧ ∀ k, k ∈ __fields__ → k ≠ "api_key" → self !! k = layered P kwargs k.
Proof. rewrite ChatCompletionSettings_is_init2. apply init2_returns. Qed.
End configuration_resolution.

(** ** The two constructor definitions *)

Section two_definitions.
Implicit Types (P : Process) (kwargs : gmap string value).


(** The first definition returns when the guard of line 59 is false. *)
Lemma init1_returns_unguarded P kwargs :
  truthy (openai_api_key P) = false →
  truthy (getattr_default (VDict (azure_openai (settings P))) "api_key" VNone)
    = false →
  ∃ self, __init__1 P kwargs = Returned self.
Proof.
  intros Hclient Hsub. unfold __init__1, super_init. simpl.
  rewrite Hclient, Hsub. simpl. by eexists.
Qed.

(** The second definition never reads the global tuning values. *)
Lemma init2_ignores_tuning P kwargs mt te rt :
  __init__2
    {| settings :=
         {| azure_openai := azure_openai (settings P);
            llm_max_tokens := mt;
            llm_temperature := te;
            llm_request_timeout_seconds := rt;
            settings_openai_api_key := settings_openai_api_key (settings P) |};
       openai_api_key := openai_api_key P;
       environ := environ P |}
    kwargs
  = __init__2 P kwargs.
Proof. reflexivity. Qed.
End two_definitions.

(** C1: with the global tuning values set to 2000, 0.2 and 30 and nothing
    else configured, the constructed settings still hold the hard-coded
    1500, 0.8 and 600: the layer of the global tuning values is not
    applied by the constructor the class ends up with. *)
Theorem global_tuning_layer_dropped :
  llm_max_tokens (settings tuned) = VInt 2000
  ∧ llm_temperature (settings tuned) = VFloat 0.2
  ∧ llm_request_timeout_seconds (settings tuned) = VFloat 30.0
  ∧ ∃ self, ChatCompletionSettings tuned ∅ = Returned self
            ∧ self !! "max_tokens" = Some (VInt 1500)
            ∧ self !! "temperature" = Some (VFloat 0.8)
            ∧ self !! "request_timeout" = Some (VFloat 600.0).
Proof.
  do 3 (split; [reflexivity|]).
  destruct (construction tuned ∅) as (self & Hret & _ & Hfield).
  exists self. split; [exact Hret|]. clear Hret.
  rewrite (Hfield "max_tokens"), (Hfield "temperature"),
    (Hfield "request_timeout") by (declared_field || intros [=]).
  repeat split; vm_compute; reflexivity.
Qed.


(** ** The api key *)

Section api_key.
Implicit Types (P : Process) (kwargs : gmap string value).

Lemma base_key_unset P kwargs :
  unset (kwargs !! "api_key") →
  unset (azure_openai (settings P) !! "api_key") →
  environ P !! "MARVIN_AZURE_OPENAI_API_KEY" = None →
  base_key P kwargs = VNone.
Proof.
  intros Hkw Hsub Henv. unfold base_key, environ_get.
  rewrite (provider_defaults_unset _ _ Hsub), Henv.
  by destruct Hkw as [-> | ->].
Qed.


Lemma base_key_explicit P kwargs v :
  kwargs !! "api_key" = Some v → base_key P kwargs = SecretStr v.
Proof. intros Hkw. unfold base_key. by rewrite Hkw. Qed.

(** C3, as the code has it: with no key in any source, construction
    returns, with [api_key] left [None]. *)
Theorem no_api_key_leaves_key_unset P kwargs :
  no_api_key_anywhere P kwargs →
  ∃ self, ChatCompletionSettings P kwargs = Returned self
          ∧ self !! "api_key" = Some VNone.
Proof.
  intros (Hkw & Hsub & Henv & _ & Hclient & _).
  destruct (construction P kwargs) as (self & Hret & Hkey & _).
  exists self. split; [exact Hret|].
  unfold settled_key in Hkey.
  by rewrite Hkey, Hclient, base_key_unset.
Qed.


(** C5, as the code has it: with only [OPENAI_API_KEY] exported, no
    [api_key] keyword argument and no key in the provider sub-section,
    the variable itself is not read.  [api_key] resolves to [Y] when the
    global client holds [Y], and stays [None] when the client holds no
    key. *)
Theorem generic_variable_through_client P kwargs Y :
  environ P !! "OPENAI_API_KEY" = Some Y →
  environ P !! "MARVIN_AZURE_OPENAI_API_KEY" = None →
  kwargs !! "api_key" = None →
  unset (azure_openai (settings P) !! "api_key") →
  (openai_api_key P = VStr Y → nonempty Y = true →
     resolves_api_key_to P kwargs Y)
  ∧ (truthy (openai_api_key P) = false →
     ∃ self, ChatCompletionSettings P kwargs = Returned self
             ∧ self !! "api_key" = Some VNone).
Proof.
  intros _ Henv Hkw Hsub.
  destruct (construction P kwargs) as (self & Hret & Hkey & _).
  unfold settled_key in Hkey.
  rewrite base_key_unset in Hkey by (done || by left).
  split.
  - intros Hclient HY. exists self. split; [exact Hret|].
    rewrite Hkey, Hclient. simpl. rewrite HY. reflexivity.
  - intros Hclient. exists self. split; [exact Hret|].
    by rewrite Hkey, Hclient.
Qed.

(** C9, as the code has it: a keyword argument for a declared field
    other than [api_key] is read back unchanged; an [api_key] argument
    is read back, wrapped as a secret, provided it is not empty; an
    empty or [None] one is replaced by the key of the global client,
    wrapped as a secret, when the client holds one, and is kept when the
    client holds none.  No default and no sub-section value ever takes
    the place of a keyword argument. *)
Theorem explicit_arguments_read_back P kwargs :
  ∃ self, ChatCompletionSettings P kwargs = Returned self
    ∧ (∀ k v, k ∈ __fields__ → k ≠ "api_key" →
              kwargs !! k = Some v → self !! k = Some v)
    ∧ (∀ v, kwargs !! "api_key" = Some v →
            (truthy (SecretStr v) = true → self !! "api_key" = Some (SecretStr v))
            ∧ (truthy (SecretStr v) = false →
               truthy (openai_api_key P) = true →
               self !! "api_key" = Some (SecretStr (openai_api_key P)))
            ∧ (truthy (SecretStr v) = false →
               truthy (openai_api_key P) = false →
               self !! "api_key" = Some (SecretStr v))).
Proof.
  destruct (construction P kwargs) as (self & Hret & Hkey & Hfield).
  exists self. split; [exact Hret|]. split.
  - intros k v Hk Hne Hkw. rewrite Hfield by done. unfold layered.
    by rewrite Hkw.
  - intros v Hkw. unfold settled_key in Hkey.
    rewrite Hkey, (base_key_explicit _ _ v) by done. repeat split.
    + intros ->. by rewrite andb_false_r.
    + by intros -> ->.
    + by intros -> ->.
Qed.
End api_key.

(** C3 as stated fails: on the bare process state, where no source holds
    a key, construction does not raise [ConfigurationError]. *)
Lemma no_api_key_does_not_raise :
  no_api_key_anywhere bare ∅
  ∧ (∃ self, ChatCompletionSettings bare ∅ = Returned self)
  ∧ ChatCompletionSettings bare ∅ ≠ Raised (ConfigurationError "api_key").
Proof.
  split; [repeat split; try reflexivity; by left|].
  destruct (construction bare ∅) as (self & Hret & _).
  split; [by exists self|].
  rewrite Hret. discriminate.
Qed.

Lemma no_api_key_leaves_key_unset_witness :
  ∃ self, ChatCompletionSettings bare ∅ = Returned self
          ∧ self !! "api_key" = Some VNone.
Proof.
  apply (no_api_key_leaves_key_unset bare ∅).
  repeat split; try reflexivity; by left.
Defined.


(** C5 as stated fails: with only [OPENAI_API_KEY] exported and nothing
    else configured, [api_key] stays [None]. *)
Lemma generic_variable_not_read :
  environ only_generic_variable !! "OPENAI_API_KEY" = Some "Y"
  ∧ environ only_generic_variable !! "MARVIN_AZURE_OPENAI_API_KEY" = None
  ∧ (∅ : gmap string value) !! "api_key" = None
  ∧ (∃ self, ChatCompletionSettings only_generic_variable ∅ = Returned self
             ∧ self !! "api_key" = Some VNone)
  ∧ ¬ resolves_api_key_to only_generic_variable ∅ "Y".
Proof.
  do 3 (split; [reflexivity|]). split.
  - destruct (construction only_generic_variable ∅) as (self & Hret & Hkey & _).
    exists self. split; [exact Hret|]. rewrite Hkey. vm_compute. reflexivity.
  - intros (self & Hret & Hkey).
    destruct (construction only_generic_variable ∅) as (self' & Hret' & Hkey' & _).
    rewrite Hret in Hret'. injection Hret' as <-.
    rewrite Hkey' in Hkey. clear Hret. vm_compute in Hkey. discriminate Hkey.
Qed.

Lemma generic_variable_through_client_witness :
  resolves_api_key_to generic_variable_on_client ∅ "Y"
  ∧ ∃ self, ChatCompletionSettings only_generic_variable ∅ = Returned self
            ∧ self !! "api_key" = Some VNone.
Proof.
  split.
  - apply (generic_variable_through_client generic_variable_on_client ∅ "Y");
      [reflexivity | reflexivity | reflexivity | by left | reflexivity | reflexivity].
  - apply (generic_variable_through_client only_generic_variable ∅ "Y");
      [reflexivity | reflexivity | reflexivity | by left | reflexivity].
Defined.

(** C9 as stated fails: an explicit empty [api_key] is not read back when
    the global client holds a key; the client's key is. *)
Lemma explicit_empty_key_replaced :
  explicit_base_and_empty_key !! "api_key" = Some (VStr "")
  ∧ resolves_api_key_to client_key explicit_base_and_empty_key "W"
  ∧ ¬ resolves_api_key_to client_key explicit_base_and_empty_key "".
Proof.
  split; [reflexivity|]. split.
  - destruct (construction client_key explicit_base_and_empty_key) as (self & Hret & Hkey & _).
    exists self. split; [exact Hret|]. rewrite Hkey. vm_compute. reflexivity.
  - intros (self & Hret & Hkey).
    destruct (construction client_key explicit_base_and_empty_key) as (self' & Hret' & Hkey' & _).
    rewrite Hret in Hret'. injection Hret' as <-.
    rewrite Hkey' in Hkey. clear Hret. vm_compute in Hkey. discriminate Hkey.
Qed.

Lemma explicit_arguments_read_back_witness :
  (∃ self, ChatCompletionSettings client_key explicit_base_and_key = Returned self
           ∧ self !! "api_base" = Some (VStr "https://x")
           ∧ self !! "api_key" = Some (VSecret "k"))
  ∧ (∃ self, ChatCompletionSettings client_key explicit_base_and_empty_key
             = Returned self
             ∧ self !! "api_key" = Some (VSecret "W")).
Proof.
  split.
  - destruct (explicit_arguments_read_back client_key explicit_base_and_key)
      as (self & Hret & Hfield & Hkey).
    exists self. split; [exact Hret|]. split.
    + apply Hfield; [declared_field | intros [=] | reflexivity].
    + apply (proj1 (Hkey (VStr "k") eq_refl)). reflexivity.
  - destruct (explicit_arguments_read_back client_key explicit_base_and_empty_key)
      as (self & Hret & _ & Hkey).
    exists self. split; [exact Hret|].
    apply (proj1 (proj2 (Hkey (VStr "") eq_refl))); reflexivity.
Defined.

(** ** How the key is stored *)

(** A key that reaches the instance through the inherited constructor is
    wrapped as a secret. *)
Lemma variable_key_stored_wrapped :
  ∃ self, ChatCompletionSettings both_variables ∅ = Returned self
          ∧ self !! "api_key" = Some (VSecret "X").
Proof.
  destruct (construction both_variables ∅) as (self & Hret & Hkey & _).
  exists self. split; [exact Hret|]. rewrite Hkey. vm_compute. reflexivity.
Qed.

(** So is a key taken from the global client (line 88): the assignment
    goes through the validation of the field. *)
Lemma client_key_stored_wrapped :
  ∃ self, ChatCompletionSettings client_key ∅ = Returned self
          ∧ self !! "api_key" = Some (VSecret "W").
Proof.
  destruct (construction client_key ∅) as (self & Hret & Hkey & _).
  exists self. split; [exact Hret|]. rewrite Hkey. vm_compute. reflexivity.
Qed.

(** ** How the key is rendered *)

Section rendering.
Implicit Types (P : Process) (kwargs : gmap string value).

Lemma textual_SecretStr v :
  textual v → SecretStr v = VNone ∨ ∃ key, SecretStr v = VSecret key.
Proof. destruct v; simpl; try done; eauto. Qed.

Lemma base_key_textual P kwargs :
  textual_key_sources P kwargs →
  base_key P kwargs = VNone ∨ ∃ key, base_key P kwargs = VSecret key.
Proof.
  intros (Hkw & Hsub & _). unfold base_key. apply textual_SecretStr.
  destruct (kwargs !! "api_key") as [v|] eqn:Hv; [by apply Hkw|].
  rewrite provider_defaults_lookup.
  destruct (azure_openai (settings P) !! "api_key") as [v|] eqn:Hv'.
  - case_decide; [by apply Hsub|].
    unfold environ_get. by destruct (environ P !! _).
  - unfold environ_get. by destruct (environ P !! _).
Qed.

(** C8: whichever source supplied the key (keyword argument, provider
    sub-section, environment variable or global client), the constructed
    instance holds [None] or a secret in [api_key], never a plain string,
    and its rendering shows [None] or the mask there, not the key. *)
Theorem rendering_masks_api_key P kwargs :
  textual_key_sources P kwargs →
  ∃ self, ChatCompletionSettings P kwargs = Returned self
    ∧ ((self !! "api_key" = Some VNone
        ∧ render self !! "api_key" = Some VNone)
       ∨ ∃ key, self !! "api_key" = Some (VSecret key)
                ∧ render self !! "api_key"
                  = Some (VSecret (if nonempty key then mask else ""))).
Proof.
  intros Htext.
  destruct (construction P kwargs) as (self & Hret & Hkey & _).
  exists self. split; [exact Hret|].
  assert (settled_key P kwargs = VNone ∨ ∃ key, settled_key P kwargs = VSecret key)
    as [Hnone | [key Hsecret]].
  { unfold settled_key.
    destruct (truthy (openai_api_key P) && _).
    - apply textual_SecretStr, Htext.
    - by apply base_key_textual. }
  - left. unfold render. by rewrite lookup_fmap, Hkey, Hnone.
  - right. exists key. unfold render. by rewrite lookup_fmap, Hkey, Hsecret.
Qed.
End rendering.

Lemma rendering_masks_api_key_witness :
  ∃ self, ChatCompletionSettings client_key ∅ = Returned self
          ∧ self !! "api_key" = Some (VSecret "W")
          ∧ render self !! "api_key" = Some (VSecret "**********").
Proof.
  destruct (rendering_masks_api_key client_key ∅)
    as (self & Hret & [[Hnone _] | (key & Hkey & Hshown)]).
  - repeat split; [intros v [=] | intros v [=]].
  - exfalso.
    destruct (construction client_key ∅) as (self' & Hret' & Hkey' & _).
    rewrite Hret in Hret'. injection Hret' as <-.
    rewrite Hkey' in Hnone. vm_compute in Hnone. discriminate Hnone.
  - destruct (construction client_key ∅) as (self' & Hret' & Hkey' & _).
    exists self. split; [exact Hret|].
    rewrite Hret in Hret'. injection Hret' as <-.
    rewrite Hkey' in Hkey. vm_compute in Hkey. injection Hkey as <-.
    split; [exact Hkey'|exact Hshown].
Defined.

(** * Further properties of the response accessors *)

Section response_accessors.
Implicit Types (self : ChatResponse) (c : Vendor.Choice).

(** A comprehension raises only what one of its elements raises. *)
Lemma comprehension_Raised_inv {A B} (f : A → result B) (l : list A) e :
  comprehension f l = Raised e → ∃ x, x ∈ l ∧ f x = Raised e.
Proof.
  induction l as [|x l IH]; simpl; [done|].
  destruct (f x) as [y|e'] eqn:Hx; simpl.
  - destruct (comprehension f l) as [ys|e'] eqn:Hl; simpl; [done|].
    intros [= ->]. destruct (IH eq_refl) as (z & Hz & Hfz).
    exists z. split; [by right | done].
  - intros [= ->]. exists x. split; [by left | done].
Qed.

(** When every element returns or raises the same exception, one raising
    element is enough for the comprehension to raise it. *)
Lemma comprehension_raises {A B} (f : A → result B) (l : list A) e :
  (∀ x, x ∈ l → (∃ y, f x = Returned y) ∨ f x = Raised e) →
  (∃ x, x ∈ l ∧ f x = Raised e) →
  comprehension f l = Raised e.
Proof.
  induction l as [|x l IH]; intros Hall (z & Hz & Hfz).
  - by apply elem_of_nil in Hz.
  - simpl. destruct (Hall x) as [[y Hy] | Hx]; [by left | | by rewrite Hx].
    rewrite Hy. simpl. rewrite IH; [done | |].
    + intros x' Hx'. apply Hall. by right.
    + apply elem_of_cons in Hz as [-> | Hz]; [congruence|]. by exists z.
Qed.

Lemma getattr_function_call (m : gmap string value) :
  getattr (VDict m) "function_call" =
    match m !! "function_call" with
    | Some v => Returned v
    | None => Raised (AttributeError "function_call")
    end.
Proof. reflexivity. Qed.

(** X1: [message] never raises, whatever the number of choices, and what
    it returns is a list exactly when that number is not one. *)
Theorem message_always_returns self :
  ∃ v, message self = Returned v
       ∧ (isinstance_list v = true ↔ length (Vendor.choices (raw self)) ≠ 1%nat).
Proof.
  unfold message.
  destruct (Vendor.choices (raw self)) as [|c [|c' cs]]; simpl;
    eexists; (split; [reflexivity|]); simpl; split; (done || lia).
Qed.

(** X2: with exactly one choice [function_call] never raises: it returns
    the [function_call] attribute of the message, and [None] when the
    message has no such attribute. *)
Theorem function_call_singular self c :
  Vendor.choices (raw self) = [c] →
  function_call self =
    Returned (default VNone (Vendor.message c !! "function_call")).
Proof.
  intros Hc. unfold function_call. rewrite (message_singular self c Hc). simpl.
  unfold getattr_default. rewrite getattr_function_call.
  by destruct (Vendor.message c !! "function_call").
Qed.

(** X3: [function_call] raises exactly when the number of choices is not
    one and some message has no [function_call] attribute, and what it
    raises then is [AttributeError]. *)
Theorem function_call_raises_iff self e :
  function_call self = Raised e ↔
    e = AttributeError "function_call"
    ∧ length (Vendor.choices (raw self)) ≠ 1%nat
    ∧ ∃ c, c ∈ Vendor.choices (raw self)
           ∧ Vendor.message c !! "function_call" = None.
Proof.
  destruct (decide (length (Vendor.choices (raw self)) = 1%nat)) as [Hone|Hmany].
  - destruct (Vendor.choices (raw self)) as [|c [|c' cs]] eqn:Hcs; try done.
    unfold function_call. rewrite (message_singular self c Hcs). simpl.
    split; [done|]. by intros (_ & Hne & _).
  - rewrite function_call_plural by done. split.
    + intros Hraise.
      destruct (comprehension (λ x, getattr x "function_call") _)
        as [fcs|e'] eqn:Hcomp; [done|].
      injection Hraise as ->.
      apply comprehension_Raised_inv in Hcomp as (x & Hx & Hfx).
      apply list_elem_of_fmap in Hx as (c & -> & Hc).
      rewrite getattr_function_call in Hfx.
      destruct (Vendor.message c !! "function_call") eqn:Hattr; [done|].
      injection Hfx as <-. split; [done|]. split; [done|]. by exists c.
    + intros (-> & _ & c & Hc & Hattr).
      rewrite (comprehension_raises _ _ (AttributeError "function_call")); [done| |].
      * intros x (c' & -> & _)%list_elem_of_fmap.
        rewrite getattr_function_call.
        destruct (Vendor.message c' !! "function_call"); [left; by eexists | by right].
      * exists (VDict (Vendor.message c)). split.
        -- apply list_elem_of_fmap. by exists c.
        -- by rewrite getattr_function_call, Hattr.
Qed.

(** X4: with a number of choices other than one, all of whose messages
    have the attribute, [function_call] returns a list as long as the
    list of choices, holding at each position the attribute of the
    message at that position, [None] included. *)
Theorem function_call_plural_positional self :
  length (Vendor.choices (raw self)) ≠ 1%nat →
  (∀ c, c ∈ Vendor.choices (raw self) →
        is_Some (Vendor.message c !! "function_call")) →
  ∃ fcs, function_call self = Returned (VList fcs)
         ∧ length fcs = length (Vendor.choices (raw self))
         ∧ ∀ i c, Vendor.choices (raw self) !! i = Some c →
                  fcs !! i = Vendor.message c !! "function_call".
Proof.
  intros Hlen Hall.
  exists (map (λ c, default VNone (Vendor.message c !! "function_call"))
            (Vendor.choices (raw self))).
  split; [|split].
  - apply function_call_plural_present; [done|].
    intros c Hc. by destruct (Hall c Hc) as [v ->].
  - by rewrite length_map.
  - intros i c Hi. rewrite list_lookup_fmap, Hi. simpl.
    destruct (Hall c) as [v ->]; [|done].
    apply list_elem_of_lookup. by exists i.
Qed.
End response_accessors.

Lemma function_call_singular_witness :
  function_call one_choice = Returned VNone.
Proof.
  apply (function_call_singular one_choice (choice 0 (text_message "hello"))).
  reflexivity.
Defined.

Lemma function_call_plural_positional_witness :
  ∃ fcs, function_call three_choices_explicit_none = Returned (VList fcs)
         ∧ length fcs = 3%nat.
Proof.
  destruct (function_call_plural_positional three_choices_explicit_none)
    as (fcs & Hret & Hlen & _).
  - simpl. lia.
  - intros c Hc. simpl in Hc.
    repeat (apply elem_of_cons in Hc as [-> | Hc]; [by eexists|]).
    by apply elem_of_nil in Hc.
  - exists fcs. split; [exact Hret | exact Hlen].
Defined.

(** * Further properties of the constructor in effect *)

Section constructor_in_effect.
Implicit Types (P : Process) (kwargs : gmap string value) (k : string).

Lemma truthy_SecretStr v : truthy (SecretStr v) = truthy v.
Proof. by destruct v. Qed.

(** No field is read from [OPENAI_API_KEY]. *)
Lemma env_name_not_generic k : env_name k ≠ "OPENAI_API_KEY".
Proof. unfold env_name, env_prefix. simpl. by intros [=]. Qed.

Lemma env_settings_agree (env env' : gmap string string) :
  (∀ name, name ≠ "OPENAI_API_KEY" → env !! name = env' !! name) →
  env_settings env = env_settings env'.
Proof.
  intros Henv. apply map_eq. intros k. rewrite !env_settings_lookup.
  case_decide; [|done]. by rewrite (Henv _ (env_name_not_generic k)).
Qed.

(** The second definition reads the process state through the filtered
    sub-section, the global client's key and the environment source. *)
Lemma init2_reads P P' kwargs :
  provider_defaults (settings P) = provider_defaults (settings P') →
  openai_api_key P = openai_api_key P' →
  env_settings (environ P) = env_settings (environ P') →
  __init__2 P kwargs = __init__2 P' kwargs.
Proof.
  intros Hsub Hclient Henv.
  unfold __init__2, super_init, resolved.
  by rewrite Hsub, Hclient, Henv.
Qed.

Lemma base_key_client P kwargs v :
  base_key (with_openai_api_key v P) kwargs = base_key P kwargs.
Proof. reflexivity. Qed.

(** X5: the constructor in effect ignores the global tuning values, the
    key of the generic settings section and the variable
    [OPENAI_API_KEY]: two process states that differ only there give the
    same result. *)
Theorem construction_ignores_generic_sources P P' kwargs :
  azure_openai (settings P) = azure_openai (settings P') →
  openai_api_key P = openai_api_key P' →
  (∀ name, name ≠ "OPENAI_API_KEY" → environ P !! name = environ P' !! name) →
  ChatCompletionSettings P kwargs = ChatCompletionSettings P' kwargs.
Proof.
  intros Hsub Hclient Henv. rewrite !ChatCompletionSettings_is_init2.
  apply init2_reads; [|done|by apply env_settings_agree].
  unfold provider_defaults. by rewrite Hsub.
Qed.

(** X6: a sub-section entry that is [None], or whose name is no declared
    field, has no effect: the result is the same as without the entry. *)
Theorem subsection_null_or_undeclared_ignored P kwargs k v :
  k ∉ __fields__ ∨ v = VNone →
  ChatCompletionSettings
    (with_azure_openai (<[k := v]> (azure_openai (settings P))) P) kwargs
  = ChatCompletionSettings
      (with_azure_openai (delete k (azure_openai (settings P))) P) kwargs.
Proof.
  intros Hignored. rewrite !ChatCompletionSettings_is_init2.
  apply init2_reads; [|done|done].
  unfold provider_defaults. simpl.
  apply map_filter_insert_False. simpl.
  intros [Hk Hv]. destruct Hignored as [Hk' | ->]; [done|]. by apply Hv.
Qed.

(** X7: the key of the global client only fills in.  Given what the
    constructor returns when the client holds no key, the result with a
    client key is the same instance when its [api_key] is truthy or the
    client's key is falsy, and that instance with [api_key] set to the
    client's key, wrapped as a secret, otherwise. *)
Theorem client_key_only_fills P kwargs client self v :
  ChatCompletionSettings (with_openai_api_key VNone P) kwargs = Returned self →
  self !! "api_key" = Some v →
  ChatCompletionSettings (with_openai_api_key client P) kwargs =
    Returned (if truthy client && negb (truthy v)
              then <["api_key" := SecretStr client]> self
              else self).
Proof.
  rewrite !ChatCompletionSettings_is_init2, !init2_closed_form. simpl.
  intros [= <-]. rewrite base_key_spec. intros [= <-].
  by rewrite base_key_client.
Qed.

(** X8: without an [api_key] keyword argument, a non-empty key of the
    provider sub-section is the one the instance gets, whatever the
    environment and the global client hold. *)
Theorem subsection_key_wins P kwargs v :
  kwargs !! "api_key" = None →
  azure_openai (settings P) !! "api_key" = Some v →
  truthy v = true →
  ∃ self, ChatCompletionSettings P kwargs = Returned self
          ∧ self !! "api_key" = Some (SecretStr v).
Proof.
  intros Hkw Hsub Hv.
  destruct (construction P kwargs) as (self & Hret & Hkey & _).
  exists self. split; [exact Hret|]. rewrite Hkey.
  unfold settled_key, base_key.
  rewrite Hkw, provider_defaults_lookup, Hsub.
  rewrite decide_True; [|split; [declared_field | by intros ->]].
  by rewrite truthy_SecretStr, Hv, andb_false_r.
Qed.

End constructor_in_effect.

Lemma construction_ignores_generic_sources_witness :
  ChatCompletionSettings only_generic_variable ∅ = ChatCompletionSettings tuned ∅.
Proof.
  apply (construction_ignores_generic_sources only_generic_variable tuned ∅);
    [reflexivity | reflexivity |].
  intros name Hname. simpl.
  rewrite lookup_singleton_ne by done. by rewrite lookup_empty.
Defined.

Lemma subsection_null_or_undeclared_ignored_witness :
  ChatCompletionSettings
    (with_azure_openai (<["api_base" := VNone]> (azure_openai (settings bare))) bare) ∅
  = ChatCompletionSettings
      (with_azure_openai (delete "api_base" (azure_openai (settings bare))) bare) ∅.
Proof.
  apply (subsection_null_or_undeclared_ignored bare ∅ "api_base" VNone).
  right. reflexivity.
Defined.

Lemma client_key_only_fills_witness :
  (∃ self, ChatCompletionSettings (with_openai_api_key VNone bare) ∅
             = Returned self
           ∧ ChatCompletionSettings (with_openai_api_key (VStr "W") bare) ∅
             = Returned (<["api_key" := VSecret "W"]> self))
  ∧ (∃ self, ChatCompletionSettings (with_openai_api_key VNone both_variables) ∅
               = Returned self
             ∧ ChatCompletionSettings
                 (with_openai_api_key (VStr "W") both_variables) ∅
               = Returned self).
Proof.
  split.
  - destruct (construction (with_openai_api_key VNone bare) ∅)
      as (self & Hret & Hkey & _).
    exists self. split; [exact Hret|].
    apply (client_key_only_fills bare ∅ (VStr "W") self _ Hret Hkey).
  - destruct (construction (with_openai_api_key VNone both_variables) ∅)
      as (self & Hret & Hkey & _).
    exists self. split; [exact Hret|].
    apply (client_key_only_fills both_variables ∅ (VStr "W") self _ Hret Hkey).
Defined.

Lemma subsection_key_wins_witness :
  ∃ self, ChatCompletionSettings both_variables_and_subsection ∅ = Returned self
          ∧ self !! "api_key" = Some (VSecret "Z").
Proof.
  apply (subsection_key_wins both_variables_and_subsection ∅ (VSecret "Z"));
    reflexivity.
Defined.


(** * Properties of the first constructor definition *)

Section first_definition.
Implicit Types (P : Process) (kwargs : gmap string value) (k : string).

(** With the test of line 59 false the first definition returns what
    the inherited constructor built. *)
Lemma init1_unguarded P kwargs :
  first_guard P = false →
  __init__1 P kwargs =
    Returned (resolved (kwargs ∪ tuning_defaults (settings P)) (environ P)).
Proof.
  intros Hguard. unfold __init__1, super_init. simpl.
  unfold first_guard in Hguard. by rewrite Hguard.
Qed.

(** Whatever the first definition returns differs from what the
    inherited constructor built in [api_key] at most. *)
Lemma init1_shape P kwargs self :
  __init__1 P kwargs = Returned self →
  ∃ key,
    self = setattr (resolved (kwargs ∪ tuning_defaults (settings P)) (environ P))
             "api_key" key
    ∨ self = resolved (kwargs ∪ tuning_defaults (settings P)) (environ P).
Proof.
  unfold __init__1, super_init. simpl. intros Hret.
  repeat match type of Hret with
         | (if ?b then _ else _) = _ => destruct b
         | (_ ≫= _) = _ =>
             destruct (get_secret_value _) as [key|]; simpl in Hret;
             [|discriminate Hret]
         end;
    injection Hret as <-; (by eexists; left) || (by exists VNone; right).
Qed.

Lemma init1_field P kwargs self k :
  __init__1 P kwargs = Returned self →
  k ∈ __fields__ → k ≠ "api_key" →
  self !! k =
    match kwargs !! k with
    | Some v => Some v
    | None =>
        match tuning_defaults (settings P) !! k with
        | Some v => Some v
        | None =>
            match environ P !! env_name k with
            | Some s => Some (from_env k s)
            | None => field_defaults !! k
            end
        end
    end.
Proof.
  intros Hret Hk Hne.
  assert (resolved (kwargs ∪ tuning_defaults (settings P)) (environ P) !! k
          = match kwargs !! k with
            | Some v => Some v
            | None =>
                match tuning_defaults (settings P) !! k with
                | Some v => Some v
                | None =>
                    match environ P !! env_name k with
                    | Some s => Some (from_env k s)
                    | None => field_defaults !! k
                    end
                end
            end) as Hbase.
  { rewrite resolved_field, lookup_union_first by done.
    by destruct (kwargs !! k), (tuning_defaults (settings P) !! k). }
  destruct (init1_shape _ _ _ Hret) as [key [-> | ->]]; [|done].
  unfold setattr. by rewrite lookup_insert_ne.
Qed.

(** X10: the key chain of the first definition.  When the global client
    or the provider sub-section holds a key, the first definition
    returns and sets [api_key], over whatever the keyword arguments and
    the sub-section gave, to the first non-empty one of: the variable
    [MARVIN_AZURE_OPENAI_API_KEY], the variable [OPENAI_API_KEY], the
    global client's key, the secret of the generic settings section.  The
    key is stored wrapped as a secret in each case. *)
Theorem first_definition_key_chain P kwargs :
  first_guard P = true →
  (settings_openai_api_key (settings P) = VNone
   ∨ ∃ s, settings_openai_api_key (settings P) = VSecret s) →
  ∃ self, __init__1 P kwargs = Returned self
    ∧ (∀ X, environ P !! "MARVIN_AZURE_OPENAI_API_KEY" = Some X →
            nonempty X = true → self !! "api_key" = Some (VSecret X))
    ∧ (env_falsy P "MARVIN_AZURE_OPENAI_API_KEY" →
       ∀ Y, environ P !! "OPENAI_API_KEY" = Some Y → nonempty Y = true →
            self !! "api_key" = Some (VSecret Y))
    ∧ (env_falsy P "MARVIN_AZURE_OPENAI_API_KEY" →
       env_falsy P "OPENAI_API_KEY" →
       truthy (openai_api_key P) = true →
       self !! "api_key" = Some (SecretStr (openai_api_key P)))
    ∧ (env_falsy P "MARVIN_AZURE_OPENAI_API_KEY" →
       env_falsy P "OPENAI_API_KEY" →
       truthy (openai_api_key P) = false →
       ∀ s, settings_openai_api_key (settings P) = VSecret s →
            nonempty s = true → self !! "api_key" = Some (VSecret s)).
Proof.
  intros Hguard Hgeneric. unfold env_falsy, __init__1, super_init. simpl.
  unfold first_guard in Hguard. rewrite Hguard.
  unfold environ_get.
  destruct (environ P !! "MARVIN_AZURE_OPENAI_API_KEY") as [X|] eqn:HX;
    destruct (environ P !! "OPENAI_API_KEY") as [Y|] eqn:HY; simpl;
    repeat match goal with
           | |- context [if nonempty ?s then _ else _] =>
               destruct (nonempty s) eqn:?; simpl
           | |- context [if truthy ?v then _ else _] =>
               destruct (truthy v) eqn:?; simpl
           end;
    try (destruct Hgeneric as [Hnone | [s Hs]];
         [rewrite Hnone in *; simpl in *; try discriminate
         |rewrite Hs in *; simpl in *]);
    (eexists; split; [reflexivity|]);
    unfold setattr, validate; rewrite ?decide_True by done;
    rewrite ?lookup_insert_eq;
    repeat split; intros; simplify_eq/=; try done; congruence.
Qed.

(** X11: when neither the global client nor the provider sub-section
    holds a key, the first definition does not run its key chain: the
    variable [OPENAI_API_KEY] and the generic settings section have no
    effect on what it returns. *)
Theorem first_definition_unguarded_ignores_generic_key P P' kwargs :
  first_guard P = false →
  azure_openai (settings P) = azure_openai (settings P') →
  llm_max_tokens (settings P) = llm_max_tokens (settings P') →
  llm_temperature (settings P) = llm_temperature (settings P') →
  llm_request_timeout_seconds (settings P)
    = llm_request_timeout_seconds (settings P') →
  openai_api_key P = openai_api_key P' →
  (∀ name, name ≠ "OPENAI_API_KEY" → environ P !! name = environ P' !! name) →
  __init__1 P kwargs = __init__1 P' kwargs.
Proof.
  intros Hguard Hsub Hmt Hte Hrt Hclient Henv.
  assert (first_guard P' = false) as Hguard'.
  { unfold first_guard in *. by rewrite <-Hsub, <-Hclient. }
  rewrite !init1_unguarded by done.
  unfold tuning_defaults, provider_defaults, resolved.
  by rewrite Hsub, Hmt, Hte, Hrt, (env_settings_agree _ _ Henv).
Qed.

(** X12: the two definitions resolve [api_type], [api_base],
    [api_version] and [deployment_name] alike: whenever both return, the
    instances agree on these four fields. *)
Theorem definitions_agree_on_endpoint_fields P kwargs first second k :
  __init__1 P kwargs = Returned first →
  __init__2 P kwargs = Returned second →
  k ∈ ["api_type"; "api_base"; "api_version"; "deployment_name"] →
  first !! k = second !! k.
Proof.
  intros Hfirst Hsecond Hk.
  destruct (init2_returns P kwargs) as (second' & Hsecond' & _ & Hfield).
  rewrite Hsecond in Hsecond'. injection Hsecond' as <-.
  assert (k ∈ __fields__ ∧ k ≠ "api_key" ∧ k ≠ "max_tokens"
          ∧ k ≠ "temperature" ∧ k ≠ "request_timeout") as (Hin & Hne & ? & ? & ?).
  { rewrite !elem_of_cons, elem_of_nil in Hk.
    destruct Hk as [-> | [-> | [-> | [-> | []]]]];
      (split; [declared_field | by repeat split]). }
  rewrite (init1_field _ _ _ _ Hfirst Hin Hne), (Hfield k Hin Hne).
  unfold layered, tuning_defaults.
  by rewrite !lookup_insert_ne by done.
Qed.
End first_definition.

Lemma first_definition_key_chain_witness :
  ∃ self, __init__1 client_key explicit_base_and_key = Returned self
          ∧ self !! "api_key" = Some (VSecret "W").
Proof.
  destruct (first_definition_key_chain client_key explicit_base_and_key)
    as (self & Hret & _ & _ & Hclient & _); [reflexivity | by left |].
  exists self. split; [exact Hret|].
  apply Hclient; reflexivity.
Defined.

Lemma first_definition_unguarded_ignores_generic_key_witness :
  __init__1 only_generic_variable ∅ = __init__1 bare ∅.
Proof.
  apply (first_definition_unguarded_ignores_generic_key only_generic_variable bare ∅);
    try reflexivity.
  intros name Hname. simpl.
  rewrite lookup_singleton_ne by done. by rewrite lookup_empty.
Defined.

Lemma definitions_agree_on_endpoint_fields_witness :
  ∃ first second,
    __init__1 tuned ∅ = Returned first
    ∧ __init__2 tuned ∅ = Returned second
    ∧ first !! "api_version" = second !! "api_version".
Proof.
  destruct (init1_returns_unguarded tuned ∅) as [first Hfirst];
    [reflexivity | reflexivity |].
  destruct (init2_returns tuned ∅) as (second & Hsecond & _).
  exists first, second. split; [exact Hfirst|]. split; [exact Hsecond|].
  apply (definitions_agree_on_endpoint_fields tuned ∅ first second "api_version"
           Hfirst Hsecond).
  apply (bool_decide_unpack _). vm_compute. exact I.
Defined.

(** * The topic filter of the cookbook flow *)

Section topic_filter.
Implicit Types (topic : gmap string value) (tags : list value).

Lemma marvin_tagged tags :
  existsb (λ v, match v with
                | VStr t => bool_decide ("marvin" = t)
                | _ => false
                end) tags = true
  ↔ VStr "marvin" ∈ tags.
Proof.
  rewrite existsb_exists. split.
  - intros (v & Hv%list_elem_of_In & Heq).
    destruct v; try done. by apply bool_decide_eq_true in Heq as <-.
  - intros Hin. exists (VStr "marvin"). split; [by apply list_elem_of_In|].
    by apply bool_decide_eq_true.
Qed.

(** X14: for a topic whose tags are a list and whose category is an
    integer, [include_topic_filter] returns a boolean, and it is [True]
    exactly when the tags contain ["marvin"] and the category is 26 or
    27. *)
Theorem include_topic_filter_true_iff topic tags z :
  topic !! "tags" = Some (VList tags) →
  topic !! "category_id" = Some (VInt z) →
  ∃ b, refresh_vectorstore.include_topic_filter topic = inr b
       ∧ (b = true ↔ VStr "marvin" ∈ tags ∧ (z = 26 ∨ z = 27)%Z).
Proof.
  intros Htags Hcat.
  unfold refresh_vectorstore.include_topic_filter, refresh_vectorstore.getitem.
  rewrite Htags, Hcat. simpl.
  destruct (existsb _ tags) eqn:Hmarvin.
  - apply marvin_tagged in Hmarvin. eexists. split; [reflexivity|].
    rewrite bool_decide_eq_true.
    unfold refresh_vectorstore.PREFECT_COMMUNITY_CATEGORIES,
      refresh_vectorstore.SHOW_AND_TELL_CATEGORY_ID,
      refresh_vectorstore.HELP_CATEGORY_ID.
    rewrite elem_of_union, !elem_of_singleton. tauto.
  - exists false. split; [reflexivity|]. split; [done|].
    intros [Hin _]. apply marvin_tagged in Hin. congruence.
Qed.

(** X15: when the list of tags does not contain ["marvin"] the filter
    returns [False] without reading the category: a missing or
    ill-typed [category_id] raises nothing. *)
Theorem include_topic_filter_short_circuit topic tags :
  topic !! "tags" = Some (VList tags) →
  VStr "marvin" ∉ tags →
  refresh_vectorstore.include_topic_filter topic = inr false.
Proof.
  intros Htags Hnot.
  unfold refresh_vectorstore.include_topic_filter, refresh_vectorstore.getitem.
  rewrite Htags. simpl.
  destruct (existsb _ tags) eqn:Hmarvin; [|done].
  by apply marvin_tagged in Hmarvin.
Qed.

(** X16: a topic without a ["tags"] entry raises [KeyError] for
    ["tags"]; a topic tagged ["marvin"] without a ["category_id"] entry
    raises [KeyError] for ["category_id"]. *)
Theorem include_topic_filter_missing_key topic :
  (topic !! "tags" = None →
   refresh_vectorstore.include_topic_filter topic
   = inl (refresh_vectorstore.KeyError "tags"))
  ∧ (∀ tags, topic !! "tags" = Some (VList tags) →
             VStr "marvin" ∈ tags →
             topic !! "category_id" = None →
             refresh_vectorstore.include_topic_filter topic
             = inl (refresh_vectorstore.KeyError "category_id")).
Proof.
  unfold refresh_vectorstore.include_topic_filter, refresh_vectorstore.getitem.
  split.
  - by intros ->.
  - intros tags -> Hin ->. simpl.
    apply marvin_tagged in Hin. by rewrite Hin.
Qed.
End topic_filter.

Lemma include_topic_filter_true_iff_witness :
  refresh_vectorstore.include_topic_filter refresh_vectorstore.marvin_help_topic
  = inr true.
Proof.
  destruct (include_topic_filter_true_iff refresh_vectorstore.marvin_help_topic
              [VStr "cloud"; VStr "marvin"] 27) as (b & Hret & Hb);
    [reflexivity | reflexivity |].
  rewrite Hret. f_equal. apply Hb. split; [|by right].
  apply elem_of_cons. right. apply elem_of_cons. by left.
Defined.

Lemma include_topic_filter_short_circuit_witness :
  refresh_vectorstore.include_topic_filter refresh_vectorstore.untagged_topic
  = inr false.
Proof.
  apply (include_topic_filter_short_circuit refresh_vectorstore.untagged_topic
           [VStr "cloud"]); [reflexivity|].
  intros Hin. apply elem_of_cons in Hin as [[=] | Hin].
  by apply elem_of_nil in Hin.
Defined.

Lemma include_topic_filter_missing_key_witness :
  refresh_vectorstore.include_topic_filter ∅
  = inl (refresh_vectorstore.KeyError "tags").
Proof.
  apply (proj1 (include_topic_filter_missing_key ∅)). reflexivity.
Defined.

(** * Constructing again from an instance *)

Section rebuild.
Implicit Types (P : Process) (kwargs self : gmap string value) (k : string).

(** The inherited constructor stores declared fields only, and all of
    them. *)
Lemma resolved_declared kwargs env k :
  is_Some (resolved kwargs env !! k) ↔ k ∈ __fields__.
Proof.
  split.
  - intros Hsome. destruct (decide (k ∈ __fields__)) as [|Hk]; [done|].
    exfalso. unfold resolved in Hsome.
    rewrite lookup_alter_is_Some, !lookup_union_first in Hsome.
    rewrite map_lookup_filter, env_settings_lookup in Hsome.
    rewrite decide_False in Hsome by done.
    destruct (kwargs !! k) as [v|]; simpl in Hsome.
    + rewrite option_guard_False in Hsome by done. simpl in Hsome.
      by apply Hk, field_defaults_declared.
    + by apply Hk, field_defaults_declared.
  - intros Hk. rewrite resolved_lookup by done.
    apply field_defaults_declared in Hk as [d Hd]. rewrite Hd.
    case_decide; destruct (kwargs !! k), (env_settings env !! k); by eexists.
Qed.

Lemma SecretStr_idemp v : SecretStr (SecretStr v) = SecretStr v.
Proof. by destruct v. Qed.

Lemma settled_key_validated P kwargs :
  SecretStr (settled_key P kwargs) = settled_key P kwargs.
Proof.
  unfold settled_key, base_key.
  destruct (truthy (openai_api_key P) && _); apply SecretStr_idemp.
Qed.

(** X13: constructing again, under the same process state, from the
    fields of a constructed instance returns that same instance. *)
Theorem rebuild_from_fields P kwargs self :
  ChatCompletionSettings P kwargs = Returned self →
  ChatCompletionSettings P self = Returned self.
Proof.
  rewrite !ChatCompletionSettings_is_init2. intros Hself.
  destruct (init2_returns P kwargs) as (self' & Hret & Hkey & _).
  rewrite Hself in Hret. injection Hret as <-.
  assert (∀ k, is_Some (self !! k) ↔ k ∈ __fields__) as Hdeclared.
  { rewrite init2_closed_form in Hself. simpl in Hself.
    intros k. destruct (truthy (openai_api_key P) && _);
      injection Hself as <-; [|apply resolved_declared].
    unfold setattr. destruct (decide (k = "api_key")) as [-> | Hne].
    - rewrite lookup_insert_eq. split; [intros _; declared_field | by eexists].
    - rewrite lookup_insert_ne by done. apply resolved_declared. }
  assert (base_key P self = settled_key P kwargs) as Hbase.
  { unfold base_key at 1. rewrite Hkey. apply settled_key_validated. }
  assert (truthy (openai_api_key P) && negb (truthy (base_key P self)) = false)
    as Hfilled.
  { rewrite Hbase. unfold settled_key.
    destruct (truthy (openai_api_key P)) eqn:Hclient; [simpl|done].
    destruct (truthy (base_key P kwargs)) eqn:Hold; simpl.
    - by rewrite Hold.
    - by rewrite truthy_SecretStr, Hclient. }
  rewrite init2_closed_form. simpl. rewrite Hfilled. f_equal.
  apply map_eq. intros k.
  destruct (decide (k ∈ __fields__)) as [Hk | Hk].
  - rewrite resolved_lookup, lookup_union_first by done.
    destruct (decide (k = "api_key")) as [-> | Hne].
    + rewrite Hkey. simpl. by rewrite settled_key_validated.
    + by apply Hdeclared in Hk as [v ->].
  - transitivity (@None value).
    + apply eq_None_not_Some. by rewrite resolved_declared.
    + symmetry. apply eq_None_not_Some. by rewrite Hdeclared.
Qed.
End rebuild.

Lemma rebuild_from_fields_witness :
  ∃ self, ChatCompletionSettings client_key ∅ = Returned self
          ∧ ChatCompletionSettings client_key self = Returned self.
Proof.
  destruct (construction client_key ∅) as (self & Hret & _).
  exists self. split; [exact Hret|].
  apply (rebuild_from_fields client_key ∅ self Hret).
Defined.

(** * Two edge cases of the layers *)

Section layer_edges.
Implicit Types (P : Process) (kwargs : gmap string value).

(** X17: an explicit [api_key=None] discards the key of the provider
    sub-section and of the provider variable: the instance gets the
    global client's key, wrapped as a secret, when there is one, and
    [None] otherwise. *)
Theorem explicit_none_discards_lower_layers P kwargs :
  kwargs !! "api_key" = Some VNone →
  ∃ self, ChatCompletionSettings P kwargs = Returned self
          ∧ self !! "api_key"
            = Some (if truthy (openai_api_key P)
                    then SecretStr (openai_api_key P)
                    else VNone).
Proof.
  intros Hkw. destruct (construction P kwargs) as (self & Hret & Hkey & _).
  exists self. split; [exact Hret|]. rewrite Hkey.
  unfold settled_key, base_key. rewrite Hkw. simpl.
  by rewrite andb_true_r.
Qed.

(** X18: in the first definition the global tuning values replace the
    sub-section's values unconditionally: without a keyword argument for
    them, [max_tokens], [temperature] and [request_timeout] are the three
    tuning values, whatever the sub-section holds for these fields. *)
Theorem first_definition_tuning_over_subsection P kwargs self :
  __init__1 P kwargs = Returned self →
  (kwargs !! "max_tokens" = None →
   self !! "max_tokens" = Some (llm_max_tokens (settings P)))
  ∧ (kwargs !! "temperature" = None →
     self !! "temperature" = Some (llm_temperature (settings P)))
  ∧ (kwargs !! "request_timeout" = None →
     self !! "request_timeout" = Some (llm_request_timeout_seconds (settings P))).
Proof.
  intros Hret.
  rewrite (init1_field _ _ _ "max_tokens" Hret),
    (init1_field _ _ _ "temperature" Hret),
    (init1_field _ _ _ "request_timeout" Hret) by (declared_field || intros [=]).
  unfold tuning_defaults. repeat split; intros ->.
  - do 2 (rewrite lookup_insert_ne by done). by rewrite lookup_insert_eq.
  - rewrite lookup_insert_ne by done. by rewrite lookup_insert_eq.
  - by rewrite lookup_insert_eq.
Qed.
End layer_edges.

Lemma explicit_none_discards_lower_layers_witness :
  (∃ self, ChatCompletionSettings both_variables_and_subsection
             {[ "api_key" := VNone ]} = Returned self
           ∧ self !! "api_key" = Some VNone)
  ∧ (∃ self, ChatCompletionSettings
               (with_openai_api_key (VStr "W") both_variables_and_subsection)
               {[ "api_key" := VNone ]} = Returned self
             ∧ self !! "api_key" = Some (VSecret "W")).
Proof.
  split.
  - apply (explicit_none_discards_lower_layers both_variables_and_subsection
             {[ "api_key" := VNone ]}).
    reflexivity.
  - apply (explicit_none_discards_lower_layers
             (with_openai_api_key (VStr "W") both_variables_and_subsection)
             {[ "api_key" := VNone ]}).
    reflexivity.
Defined.

Lemma first_definition_tuning_over_subsection_witness :
  ∃ self, __init__1 tuned ∅ = Returned self
          ∧ self !! "max_tokens" = Some (VInt 2000).
Proof.
  destruct (init1_returns_unguarded tuned ∅) as [self Hret];
    [reflexivity | reflexivity |].
  exists self. split; [exact Hret|].
  apply (proj1 (first_definition_tuning_over_subsection tuned ∅ self Hret)).
  reflexivity.
Defined.
